(** * prometheus-nomad-exporter: a shallow embedding of nomad_exporter.go

    The exporter keeps its metrics in package-level variables: four singleton
    gauges and two maps from a status-code string to a lazily created gauge.
    [Collect] holds the exporter's mutex for the whole cycle, so cycles are
    serialised; we model each cycle as one function on an explicit [State].
    The blocking HTTP GET is an input of the cycle ([get_result]); the body it
    returns is decoded by a model of Go's [encoding/json] for the struct
    [nomadHealth]. *)

From Stdlib Require Import ZArith QArith_base String Ascii List.
From stdpp Require Import base gmap strings list.

Import ListNotations.
Local Set Warnings "-register-all".
Local Open Scope Z_scope.

Section Exporter.

(** Go's [float64].  The program never computes with these values: it only
    decodes them, stores them in gauges and copies them, so the carrier is
    left abstract; [f_zero] and [f_one] are the literals [0] and [1] used by
    [nomad_up.Set(0)], [metric.Set(0)] and [nomad_up.Set(1)]. *)
Context {float64 : Type} (f_zero f_one : float64).

(** ** JSON values and the response of the upstream GET *)

(** A JSON value as [encoding/json] reads it.  A number literal is either
    the [float64] that [strconv.ParseFloat] gives for it, or a literal whose
    magnitude no [float64] holds (such as [1e400]): [ParseFloat] reports a
    range error for it, and the decoder an [UnmarshalTypeError] when the
    literal fills a [float64]. *)
Inductive json : Type :=
| JNull
| JBool (b : bool)
| JNumber (n : float64)
| JNumberOutOfRange
| JString (s : string)
| JArray (xs : list json)
| JObject (kvs : list (string * json)).

(** A response body: either not a JSON text at all (a syntax error for the
    decoder) or one JSON value. *)
Inductive body : Type :=
| BodyMalformed
| BodyJson (j : json).

(** Result of [e.client.Get(e.URI)]: a transport error, or a response with
    its status code and body. *)
Inductive get_result : Type :=
| GetFailed
| GetResponse (StatusCode : Z) (Body : body).

(** ** [type nomadHealth struct] *)

Record nomadHealth : Type := {
  UpTimeSec : float64;                              (* json:"uptime_sec" *)
  StatusCodeCount : gmap string float64;            (* json:"status_code_count" *)
  TotalStatusCodeCount : gmap string float64;       (* json:"total_status_code_count" *)
  TotalResponseTimeSec : float64;                   (* json:"total_response_time_sec" *)
  AverageResponseTimeSec : float64                  (* json:"average_response_time_sec" *)
}.

(** [var data nomadHealth]: every field at its zero value (nil maps are
    the empty map: ranging over them does nothing). *)
Definition zero_nomadHealth : nomadHealth :=
  {| UpTimeSec := f_zero; StatusCodeCount := ∅; TotalStatusCodeCount := ∅;
     TotalResponseTimeSec := f_zero; AverageResponseTimeSec := f_zero |}.

(** The exported fields of the struct, in declaration order. *)
Inductive field : Type :=
| FUpTimeSec
| FStatusCodeCount
| FTotalStatusCodeCount
| FTotalResponseTimeSec
| FAverageResponseTimeSec.

Definition json_tag (f : field) : string :=
  match f with
  | FUpTimeSec => "uptime_sec"
  | FStatusCodeCount => "status_code_count"
  | FTotalStatusCodeCount => "total_status_code_count"
  | FTotalResponseTimeSec => "total_response_time_sec"
  | FAverageResponseTimeSec => "average_response_time_sec"
  end.

Definition struct_fields : list field :=
  [FUpTimeSec; FStatusCodeCount; FTotalStatusCodeCount;
   FTotalResponseTimeSec; FAverageResponseTimeSec].

(** ** Key matching of [encoding/json]

    An object key selects the field whose tag equals it, and otherwise a field
    whose tag equals it up to case folding.  All five tags contain an [s], so
    the decoder folds with its [equalFoldRight]: ASCII letters fold to one
    case, and the UTF-8 encodings of U+017F (long s, bytes C5 BF) and U+212A
    (Kelvin sign, bytes E2 84 AA) fold to [s] and [k]. *)
Definition ascii_fold (c : ascii) : ascii :=
  let n := nat_of_ascii c in
  if (Nat.leb 65 n && Nat.leb n 90)%bool then ascii_of_nat (n + 32) else c.

Fixpoint fold_name (s : string) : string :=
  match s with
  | EmptyString => EmptyString
  | String c rest =>
      match rest with
      | String c2 rest2 =>
          if (Ascii.eqb c "197" && Ascii.eqb c2 "191")%bool
          then String "s" (fold_name rest2)
          else
            match rest2 with
            | String c3 rest3 =>
                if (Ascii.eqb c "226" && Ascii.eqb c2 "132" && Ascii.eqb c3 "170")%bool
                then String "k" (fold_name rest3)
                else String (ascii_fold c) (fold_name rest)
            | EmptyString => String (ascii_fold c) (fold_name rest)
            end
      | EmptyString => String (ascii_fold c) EmptyString
      end
  end.

Definition field_of_key (key : string) : option field :=
  match find (fun f => String.eqb (json_tag f) key) struct_fields with
  | Some f => Some f
  | None => find (fun f => String.eqb (fold_name (json_tag f)) (fold_name key)) struct_fields
  end.

(** ** Decoding ([decoder.Decode(&data)])

    [None] is a decode error.  A JSON [null] leaves a [float64] unchanged and
    sets a map to nil; an object decoded into a map adds its entries to the
    map already there (a [null] entry stores the zero value); any other
    mismatch of kinds, and a number out of [float64] range, is an
    [UnmarshalTypeError], which makes [Decode] fail.
    Keys that select no field are skipped. *)
Definition decode_float (cur : float64) (v : json) : option float64 :=
  match v with
  | JNumber n => Some n
  | JNull => Some cur
  | _ => None
  end.

Fixpoint decode_map_entries (m : gmap string float64) (kvs : list (string * json))
  : option (gmap string float64) :=
  match kvs with
  | [] => Some m
  | (k, v) :: rest =>
      match decode_float f_zero v with
      | Some n => decode_map_entries (<[k := n]> m) rest
      | None => None
      end
  end.

Definition decode_map (cur : gmap string float64) (v : json) : option (gmap string float64) :=
  match v with
  | JNull => Some ∅
  | JObject kvs => decode_map_entries cur kvs
  | _ => None
  end.

Definition decode_field (h : nomadHealth) (f : field) (v : json) : option nomadHealth :=
  match f with
  | FUpTimeSec =>
      match decode_float (UpTimeSec h) v with
      | Some n => Some {| UpTimeSec := n; StatusCodeCount := StatusCodeCount h;
                          TotalStatusCodeCount := TotalStatusCodeCount h;
                          TotalResponseTimeSec := TotalResponseTimeSec h;
                          AverageResponseTimeSec := AverageResponseTimeSec h |}
      | None => None
      end
  | FStatusCodeCount =>
      match decode_map (StatusCodeCount h) v with
      | Some m => Some {| UpTimeSec := UpTimeSec h; StatusCodeCount := m;
                          TotalStatusCodeCount := TotalStatusCodeCount h;
                          TotalResponseTimeSec := TotalResponseTimeSec h;
                          AverageResponseTimeSec := AverageResponseTimeSec h |}
      | None => None
      end
  | FTotalStatusCodeCount =>
      match decode_map (TotalStatusCodeCount h) v with
      | Some m => Some {| UpTimeSec := UpTimeSec h; StatusCodeCount := StatusCodeCount h;
                          TotalStatusCodeCount := m;
                          TotalResponseTimeSec := TotalResponseTimeSec h;
                          AverageResponseTimeSec := AverageResponseTimeSec h |}
      | None => None
      end
  | FTotalResponseTimeSec =>
      match decode_float (TotalResponseTimeSec h) v with
      | Some n => Some {| UpTimeSec := UpTimeSec h; StatusCodeCount := StatusCodeCount h;
                          TotalStatusCodeCount := TotalStatusCodeCount h;
                          TotalResponseTimeSec := n;
                          AverageResponseTimeSec := AverageResponseTimeSec h |}
      | None => None
      end
  | FAverageResponseTimeSec =>
      match decode_float (AverageResponseTimeSec h) v with
      | Some n => Some {| UpTimeSec := UpTimeSec h; StatusCodeCount := StatusCodeCount h;
                          TotalStatusCodeCount := TotalStatusCodeCount h;
                          TotalResponseTimeSec := TotalResponseTimeSec h;
                          AverageResponseTimeSec := n |}
      | None => None
      end
  end.

Fixpoint decode_object (h : nomadHealth) (kvs : list (string * json)) : option nomadHealth :=
  match kvs with
  | [] => Some h
  | (k, v) :: rest =>
      match field_of_key k with
      | None => decode_object h rest
      | Some f =>
          match decode_field h f v with
          | Some h' => decode_object h' rest
          | None => None
          end
      end
  end.

Definition Decode (b : body) : option nomadHealth :=
  match b with
  | BodyMalformed => None
  | BodyJson JNull => Some zero_nomadHealth
  | BodyJson (JObject kvs) => decode_object zero_nomadHealth kvs
  | BodyJson _ => None
  end.

(** A field of [h] holds its Go zero value. *)
Definition field_zero (h : nomadHealth) (f : field) : Prop :=
  match f with
  | FUpTimeSec => UpTimeSec h = f_zero
  | FStatusCodeCount => StatusCodeCount h = ∅
  | FTotalStatusCodeCount => TotalStatusCodeCount h = ∅
  | FTotalResponseTimeSec => TotalResponseTimeSec h = f_zero
  | FAverageResponseTimeSec => AverageResponseTimeSec h = f_zero
  end.

(** Whether an object key selects one of the struct's fields. *)
Definition selects_field (kv : string * json) : bool :=
  match field_of_key kv.1 with Some _ => true | None => false end.

(** A JSON value the decoder stores into a [float64] without a type error. *)
Definition number_or_null (v : json) : bool :=
  match v with
  | JNumber _ | JNull => true
  | _ => false
  end.

(** Whether [v] has a kind the decoder accepts for field [f]. *)
Definition value_fits (f : field) (v : json) : bool :=
  match f with
  | FStatusCodeCount | FTotalStatusCodeCount =>
      match v with
      | JNull => true
      | JObject kvs => forallb (fun kv => number_or_null kv.2) kvs
      | _ => false
      end
  | _ => number_or_null v
  end.

(** A JSON object listing the entries of a map, each key once. *)
Definition map_payload (m : gmap string float64) : json :=
  JObject ((fun kv => (kv.1, JNumber kv.2)) <$> map_to_list m).

(** A JSON object listing the five fields of [h] under their tags. *)
Definition payload_of (h : nomadHealth) : json :=
  JObject [("uptime_sec", JNumber (UpTimeSec h));
           ("status_code_count", map_payload (StatusCodeCount h));
           ("total_status_code_count", map_payload (TotalStatusCodeCount h));
           ("total_response_time_sec", JNumber (TotalResponseTimeSec h));
           ("average_response_time_sec", JNumber (AverageResponseTimeSec h))].

(** ** Fetching: the three checks of [scrape] before any metric is written *)

Inductive scrape_error : Type :=
| ErrTransport                  (* "Can't scrape Nomad: %v" *)
| ErrBadStatus (code : Z)       (* "Can't scrape Nomad: status %d" *)
| ErrDecode.                    (* "Can't scrape Nomad: json.Unmarshal %v" *)

Definition fetch (r : get_result) : scrape_error + nomadHealth :=
  match r with
  | GetFailed => inl ErrTransport
  | GetResponse code b =>
      if negb ((200 <=? code) && (code <? 300))%bool then inl (ErrBadStatus code)
      else
        match Decode b with
        | None => inl ErrDecode
        | Some data => inr data
        end
  end.

(** ** Gauges ([prometheus.Gauge] built by [newGauge]) *)

Record Gauge : Type := {
  g_namespace : string;
  g_name : string;
  g_help : string;
  g_constLabels : list (string * string);
  g_value : float64
}.

Definition namespace : string := "nomad".

(** A fresh gauge holds 0. *)
Definition newGauge (metricName docString : string) (constLabels : list (string * string))
  : Gauge :=
  {| g_namespace := namespace; g_name := metricName; g_help := docString;
     g_constLabels := constLabels; g_value := f_zero |}.

(** [g.Set(v)]. *)
Definition gauge_set (g : Gauge) (v : float64) : Gauge :=
  {| g_namespace := g_namespace g; g_name := g_name g; g_help := g_help g;
     g_constLabels := g_constLabels g; g_value := v |}.

(** [g.Desc()]: what [Describe] sends for a gauge. *)
Definition Desc (g : Gauge) : string * string * string * list (string * string) :=
  (g_namespace g, g_name g, g_help g, g_constLabels g).

(** ** The package-level metric variables *)

Record State : Type := {
  nomad_up : Gauge;
  metric_uptime : Gauge;
  metric_request_response_time_total : Gauge;
  metric_request_response_time_avg : Gauge;
  metric_request_status_count_current : gmap string Gauge;
  metric_request_status_count_total : gmap string Gauge
}.

Definition set_nomad_up (st : State) (v : float64) : State :=
  {| nomad_up := gauge_set (nomad_up st) v;
     metric_uptime := metric_uptime st;
     metric_request_response_time_total := metric_request_response_time_total st;
     metric_request_response_time_avg := metric_request_response_time_avg st;
     metric_request_status_count_current := metric_request_status_count_current st;
     metric_request_status_count_total := metric_request_status_count_total st |}.

(** The [var] block. *)
Definition var_state : State :=
  {| nomad_up := newGauge "up" "Is Nomad up ?" [];
     metric_uptime := newGauge "uptime" "Current Nomad uptime" [];
     metric_request_response_time_total :=
       newGauge "request_response_time_total" "Total response time of Nomad requests" [];
     metric_request_response_time_avg :=
       newGauge "request_response_time_avg" "Average response time of Nomad requests" [];
     metric_request_status_count_current := ∅;
     metric_request_status_count_total := ∅ |}.

(** [func init() { nomad_up.Set(0) }]: the state at process start. *)
Definition init_state : State := set_nomad_up var_state f_zero.

(** ** [scrape]

    One iteration of the loops over [data.StatusCodeCount] and
    [data.TotalStatusCodeCount]: create the labeled gauge when the status
    code is unseen, then set it. *)
Definition set_status_count (metricName : string) (statusCode : string) (nbr : float64)
    (m : gmap string Gauge) : gmap string Gauge :=
  let g := match m !! statusCode with
           | Some g => g
           | None => newGauge metricName "Number of request handled by Nomad"
                       [("statusCode", statusCode)]
           end in
  <[statusCode := gauge_set g nbr]> m.

(** The part of [scrape] after the three checks.  A Go [range] over a map
    visits the keys in an unspecified order; [map_fold] visits them in one
    order, and the result of these loops does not depend on it (the keys are
    distinct). *)
Definition scrape_update (data : nomadHealth) (st : State) : State :=
  (* for _, metric := range metric_request_status_count_current { metric.Set(0) } *)
  let current0 := fmap (fun g => gauge_set g f_zero) (metric_request_status_count_current st) in
  let current := map_fold (set_status_count "request_count_current") current0
                   (StatusCodeCount data) in
  let total := map_fold (set_status_count "request_count_total")
                 (metric_request_status_count_total st) (TotalStatusCodeCount data) in
  {| nomad_up := gauge_set (nomad_up st) f_one;
     metric_uptime := gauge_set (metric_uptime st) (UpTimeSec data);
     metric_request_response_time_total :=
       gauge_set (metric_request_response_time_total st) (TotalResponseTimeSec data);
     metric_request_response_time_avg :=
       gauge_set (metric_request_response_time_avg st) (AverageResponseTimeSec data);
     metric_request_status_count_current := current;
     metric_request_status_count_total := total |}.

(** [func (e *Exporter) scrape() error]: the error it returns (if any) and
    the metric variables afterwards. *)
Definition scrape (st : State) (r : get_result) : option scrape_error * State :=
  match fetch r with
  | inl err => (Some err, st)
  | inr data => (None, scrape_update data st)
  end.

(** ** [Collect]: the metrics sent on [ch], in order, and the new state *)
Definition Collect (st : State) (r : get_result) : list Gauge * State :=
  match scrape st r with
  | (Some _, st') =>
      let st'' := set_nomad_up st' f_zero in
      ([nomad_up st''], st'')
  | (None, st') =>
      ([nomad_up st'; metric_uptime st'; metric_request_response_time_total st';
        metric_request_response_time_avg st']
         ++ map snd (map_to_list (metric_request_status_count_current st'))
         ++ map snd (map_to_list (metric_request_status_count_total st')), st')
  end.

(** States the process can be in between two [Collect] cycles. *)
Inductive reachable : State -> Prop :=
| reachable_init : reachable init_state
| reachable_collect st r : reachable st -> reachable (snd (Collect st r)).

(** A run of successive cycles. *)
Definition run (st : State) (rs : list get_result) : State :=
  fold_left (fun s r => snd (Collect s r)) rs st.

(** [Describe]: the descriptors it sends on [ch], in order. *)
Definition Describe (st : State) : list (string * string * string * list (string * string)) :=
  [Desc (metric_uptime st); Desc (nomad_up st);
   Desc (metric_request_response_time_total st); Desc (metric_request_response_time_avg st)]
  ++ map (fun kv => Desc kv.2) (map_to_list (metric_request_status_count_current st))
  ++ map (fun kv => Desc kv.2) (map_to_list (metric_request_status_count_total st)).

(** The status codes of the payloads of the successful scrapes of a run, as
    selected by [sel] ([StatusCodeCount] or [TotalStatusCodeCount]). *)
Fixpoint scraped_codes (sel : nomadHealth -> gmap string float64) (rs : list get_result)
  : gset string :=
  match rs with
  | [] => ∅
  | r :: rs' =>
      match fetch r with
      | inr data => dom (sel data)
      | inl _ => ∅
      end ∪ scraped_codes sel rs'
  end.

End Exporter.

(** ** Concrete inputs, with [Q] as the carrier of [float64] *)
Module Scenario.
Local Open Scope Q_scope.

Definition scrapeQ := @scrape Q 0 1.
Definition CollectQ := @Collect Q 0 1.
Definition initQ := @init_state Q 0.

(** The payload of the spec's first scenario. *)
Definition body1 : @body Q :=
  BodyJson (JObject
    [("uptime_sec", JNumber (241 # 2));
     ("status_code_count", JObject [("200", JNumber 10); ("500", JNumber 1)]);
     ("total_status_code_count", JObject [("200", JNumber 1000)]);
     ("total_response_time_sec", JNumber 50);
     ("average_response_time_sec", JNumber (1 # 20))]).

Definition snap1 : @nomadHealth Q :=
  {| UpTimeSec := 241 # 2;
     StatusCodeCount := <["200" := 10]> (<["500" := 1]> ∅);
     TotalStatusCodeCount := <["200" := 1000]> ∅;
     TotalResponseTimeSec := 50;
     AverageResponseTimeSec := 1 # 20 |}.

(** The follow-up payload: [status_code_count: {"200": 12}] only. *)
Definition body2 : @body Q :=
  BodyJson (JObject [("status_code_count", JObject [("200", JNumber 12)])]).

Definition snap2 : @nomadHealth Q :=
  {| UpTimeSec := 0; StatusCodeCount := <["200" := 12]> ∅; TotalStatusCodeCount := ∅;
     TotalResponseTimeSec := 0; AverageResponseTimeSec := 0 |}.

(** A payload whose current codes are disjoint from [body1]'s. *)
Definition body3 : @body Q :=
  BodyJson (JObject [("status_code_count", JObject [("404", JNumber 2)])]).

Definition snap3 : @nomadHealth Q :=
  {| UpTimeSec := 0; StatusCodeCount := <["404" := 2]> ∅; TotalStatusCodeCount := ∅;
     TotalResponseTimeSec := 0; AverageResponseTimeSec := 0 |}.

(** Two payloads whose current codes are disjoint while the second one still
    reports the first one's code in its cumulative counts. *)
Definition bodyA : @body Q :=
  BodyJson (JObject [("status_code_count", JObject [("200", JNumber 10)]);
                     ("total_status_code_count", JObject [("200", JNumber 1000)])]).

Definition snapA : @nomadHealth Q :=
  {| UpTimeSec := 0; StatusCodeCount := <["200" := 10]> ∅;
     TotalStatusCodeCount := <["200" := 1000]> ∅;
     TotalResponseTimeSec := 0; AverageResponseTimeSec := 0 |}.

Definition bodyB : @body Q :=
  BodyJson (JObject [("status_code_count", JObject [("404", JNumber 1)]);
                     ("total_status_code_count", JObject [("200", JNumber 1005)])]).

Definition snapB : @nomadHealth Q :=
  {| UpTimeSec := 0; StatusCodeCount := <["404" := 1]> ∅;
     TotalStatusCodeCount := <["200" := 1005]> ∅;
     TotalResponseTimeSec := 0; AverageResponseTimeSec := 0 |}.

(** A payload whose only key is [uptime_sec] in upper case. *)
Definition body_upper : @body Q := BodyJson (JObject [("UPTIME_SEC", JNumber 7)]).
Definition body_upper_string : @body Q := BodyJson (JObject [("Uptime_Sec", JString "7")]).

Definition st1 : @State Q := snd (scrapeQ initQ (GetResponse 200 body1)).
Definition st2 : @State Q := snd (scrapeQ st1 (GetResponse 200 body2)).
Definition stC1 : @State Q := snd (CollectQ initQ (GetResponse 200 body1)).
Definition stC2 : @State Q := snd (CollectQ stC1 (GetResponse 200 body2)).
Definition stA : @State Q := snd (scrapeQ initQ (GetResponse 200 bodyA)).
Definition stB : @State Q := snd (scrapeQ stA (GetResponse 200 bodyB)).

Definition cur_value (st : @State Q) (k : string) : option Q :=
  g_value <$> metric_request_status_count_current st !! k.
Definition tot_value (st : @State Q) (k : string) : option Q :=
  g_value <$> metric_request_status_count_total st !! k.

End Scenario.

Section Proofs.
Context {float64 : Type} (f_zero f_one : float64).

Local Abbreviation State := (@State float64).
Local Abbreviation Gauge := (@Gauge float64).
Local Abbreviation help_count := "Number of request handled by Nomad"%string.

(** ** Gauges *)

Lemma gauge_set_set (g : Gauge) (a b : float64) :
  gauge_set (gauge_set g a) b = gauge_set g b.
Proof. by destruct g. Qed.

(** ** The loops over the status-code maps

    After the loop, a code of the payload holds a gauge (the old one, or a new
    one labeled with the code) set to the payload's number; any other code
    keeps what the map held. *)
Lemma lookup_status_counts (name : string) (m : gmap string Gauge)
    (data : gmap string float64) (k : string) :
  map_fold (set_status_count f_zero name) m data !! k =
  match data !! k with
  | Some nbr =>
      Some (gauge_set (default (newGauge f_zero name help_count [("statusCode", k)]) (m !! k)) nbr)
  | None => m !! k
  end.
Proof.
  apply (map_fold_weak_ind (fun r d =>
    r !! k = match d !! k with
             | Some nbr =>
                 Some (gauge_set (default (newGauge f_zero name help_count [("statusCode", k)])
                                   (m !! k)) nbr)
             | None => m !! k
             end)).
  - by rewrite lookup_empty.
  - intros i x d r Hi IH. unfold set_status_count.
    rewrite !lookup_insert. case_decide as Hik.
    + subst i. rewrite Hi in IH. rewrite IH. by destruct (m !! k).
    + exact IH.
Qed.

Lemma lookup_current_after (data : nomadHealth) (st : State) (k : string) :
  metric_request_status_count_current (scrape_update f_zero f_one data st) !! k =
  match StatusCodeCount data !! k with
  | Some nbr =>
      Some (gauge_set (default (newGauge f_zero "request_count_current" help_count
                                  [("statusCode", k)])
                         (metric_request_status_count_current st !! k)) nbr)
  | None => (fun g => gauge_set g f_zero) <$> metric_request_status_count_current st !! k
  end.
Proof.
  unfold scrape_update; simpl. rewrite lookup_status_counts, lookup_fmap.
  destruct (StatusCodeCount data !! k); [|done].
  destruct (metric_request_status_count_current st !! k); simpl; by rewrite ?gauge_set_set.
Qed.

Lemma lookup_total_after (data : nomadHealth) (st : State) (k : string) :
  metric_request_status_count_total (scrape_update f_zero f_one data st) !! k =
  match TotalStatusCodeCount data !! k with
  | Some nbr =>
      Some (gauge_set (default (newGauge f_zero "request_count_total" help_count
                                  [("statusCode", k)])
                         (metric_request_status_count_total st !! k)) nbr)
  | None => metric_request_status_count_total st !! k
  end.
Proof. unfold scrape_update; simpl. by rewrite lookup_status_counts. Qed.

Lemma scrape_update_idem (data : nomadHealth) (st : State) :
  scrape_update f_zero f_one data (scrape_update f_zero f_one data st) =
  scrape_update f_zero f_one data st.
Proof.
  assert (Hcur : metric_request_status_count_current
                   (scrape_update f_zero f_one data (scrape_update f_zero f_one data st)) =
                 metric_request_status_count_current (scrape_update f_zero f_one data st)).
  { apply map_eq; intros k. rewrite !lookup_current_after.
    destruct (StatusCodeCount data !! k); simpl.
    - by rewrite gauge_set_set.
    - destruct (metric_request_status_count_current st !! k); simpl; by rewrite ?gauge_set_set. }
  assert (Htot : metric_request_status_count_total
                   (scrape_update f_zero f_one data (scrape_update f_zero f_one data st)) =
                 metric_request_status_count_total (scrape_update f_zero f_one data st)).
  { apply map_eq; intros k. rewrite !lookup_total_after.
    destruct (TotalStatusCodeCount data !! k); simpl; [by rewrite gauge_set_set|done]. }
  revert Hcur Htot. unfold scrape_update at 1 3 5 7; simpl. intros -> ->.
  by rewrite !gauge_set_set.
Qed.

(** ** Decoding *)

Lemma decode_field_keeps_other (h h' : nomadHealth) (f f' : field) (v : json) :
  decode_field f_zero h f' v = Some h' -> f' <> f -> field_zero f_zero h f -> field_zero f_zero h' f.
Proof.
  intros Hd Hne Hz. destruct f'; simpl in Hd;
    repeat match type of Hd with
    | context [match ?x with Some _ => _ | None => _ end] => destruct x
    end; simplify_eq; destruct f; simpl in *; congruence.
Qed.

Lemma decode_object_keeps_unselected (f : field) (kvs : list (string * json)) :
  forall h h', decode_object f_zero h kvs = Some h' ->
  (forall k, In k (map fst kvs) -> field_of_key k <> Some f) ->
  field_zero f_zero h f -> field_zero f_zero h' f.
Proof.
  induction kvs as [|[k v] kvs IH]; simpl; intros h h' Hd Hsel Hz; [congruence|].
  destruct (field_of_key k) as [f'|] eqn:Hk.
  - destruct (decode_field f_zero h f' v) as [h1|] eqn:Hf; [|discriminate].
    apply (IH h1 h'); [done|eauto|].
    apply (decode_field_keeps_other h h1 f f' v); [done| |done].
    intros ->. by apply (Hsel k); [left|].
  - apply (IH h h'); eauto.
Qed.

Lemma decode_object_filter (kvs : list (string * json)) :
  forall h, decode_object f_zero h kvs = decode_object f_zero h (List.filter selects_field kvs).
Proof.
  induction kvs as [|[k v] kvs IH]; intros h; [done|].
  unfold selects_field at 1; simpl. destruct (field_of_key k) as [f|] eqn:Hk; simpl.
  - rewrite Hk. destruct (decode_field f_zero h f v); [apply IH|done].
  - apply IH.
Qed.

Lemma filter_selects_field_nil (kvs : list (string * json)) :
  (forall k, In k (map fst kvs) -> field_of_key k = None) ->
  List.filter (@selects_field float64) kvs = [].
Proof.
  induction kvs as [|[k v] kvs IH]; intros Hn; [done|].
  unfold selects_field at 1; simpl. rewrite (Hn k) by (by left).
  apply IH. intros k' Hk'. apply Hn. by right.
Qed.

Lemma decode_float_is_Some (cur : float64) (v : json) :
  is_Some (decode_float cur v) <-> number_or_null v = true.
Proof. destruct v; simpl; split; intros H; try done; by destruct H. Qed.

Lemma decode_map_entries_is_Some (m : gmap string float64) (kvs : list (string * json)) :
  is_Some (decode_map_entries f_zero m kvs) <->
  forallb (fun kv => number_or_null kv.2) kvs = true.
Proof.
  revert m. induction kvs as [|[k v] kvs IH]; intros m; simpl; [done|].
  destruct v; simpl; rewrite ?IH; split; intros H; try done; by destruct H.
Qed.

Lemma decode_field_is_Some (h : nomadHealth) (f : field) (v : json) :
  is_Some (decode_field f_zero h f v) <-> value_fits f v = true.
Proof.
  destruct f; destruct v as [| | | | | |kvs];
    cbn [decode_field value_fits decode_float decode_map number_or_null];
    try solve [split; intros H; try done; try (eexists; reflexivity);
               first [discriminate | destruct H as [? H]; discriminate]].
  - rewrite <- (decode_map_entries_is_Some (StatusCodeCount h) kvs).
    destruct (decode_map_entries f_zero _ kvs); split; intros H; try done;
      try (eexists; reflexivity); destruct H as [? H]; discriminate.
  - rewrite <- (decode_map_entries_is_Some (TotalStatusCodeCount h) kvs).
    destruct (decode_map_entries f_zero _ kvs); split; intros H; try done;
      try (eexists; reflexivity); destruct H as [? H]; discriminate.
Qed.

Lemma decode_object_is_Some (kvs : list (string * json)) :
  forall h, is_Some (decode_object f_zero h kvs) <->
  (forall k v f, In (k, v) kvs -> field_of_key k = Some f -> value_fits f v = true).
Proof.
  induction kvs as [|[k v] kvs IH]; intros h; simpl.
  - split; [done|]. intros _. by eexists.
  - destruct (field_of_key k) as [f|] eqn:Hk.
    + destruct (decode_field f_zero h f v) as [h'|] eqn:Hd.
      * assert (Hfit : value_fits f v = true)
          by (apply decode_field_is_Some with (h := h); by rewrite Hd).
        rewrite IH. split.
        -- intros Hr k' v' f' [[= <- <-]|Hin] Hk'; [congruence|eauto].
        -- intros Hall k' v' f' Hin Hk'. eauto.
      * split; [by intros [? ?]|].
        intros Hall. exfalso.
        assert (Hfit : value_fits f v = true) by (apply (Hall k); auto).
        apply (decode_field_is_Some h) in Hfit. rewrite Hd in Hfit. by destruct Hfit.
    + rewrite IH. split.
      * intros Hr k' v' f' [[= <- <-]|Hin] Hk'; [congruence|eauto].
      * intros Hall k' v' f' Hin Hk'. eauto.
Qed.


(** ** One [Collect] cycle *)

Lemma Collect_state (st : State) (r : get_result) :
  snd (Collect f_zero f_one st r) =
  match fetch f_zero r with
  | inl _ => set_nomad_up st f_zero
  | inr data => scrape_update f_zero f_one data st
  end.
Proof. unfold Collect, scrape. by destruct (fetch f_zero r). Qed.

Lemma Collect_up_value (st : State) (r : get_result) :
  g_value (nomad_up (snd (Collect f_zero f_one st r))) =
  match fetch f_zero r with inl _ => f_zero | inr _ => f_one end.
Proof. rewrite Collect_state. by destruct (fetch f_zero r). Qed.

Lemma run_snoc (st : State) (rs : list get_result) (r : get_result) :
  run f_zero f_one st (rs ++ [r]) = snd (Collect f_zero f_one (run f_zero f_one st rs) r).
Proof. unfold run. by rewrite fold_left_app. Qed.

(** ** Claims *)

Ltac destr_ex := repeat match goal with H : ex _ |- _ => destruct H end.

(** C2: after a successful [scrape] of a decoded snapshot, [up] reads 1 and
    the three singleton gauges hold the snapshot's [uptime_sec],
    [total_response_time_sec] and [average_response_time_sec] unchanged. *)
Theorem scrape_success_singletons (st : State) (code : Z) (b : body) (h : nomadHealth)
    (Hcode : 200 <= code < 300) (Hdec : Decode f_zero b = Some h) :
  fst (scrape f_zero f_one st (GetResponse code b)) = None /\
  g_value (nomad_up (snd (scrape f_zero f_one st (GetResponse code b)))) = f_one /\
  g_value (metric_uptime (snd (scrape f_zero f_one st (GetResponse code b)))) = UpTimeSec h /\
  g_value (metric_request_response_time_total (snd (scrape f_zero f_one st (GetResponse code b))))
    = TotalResponseTimeSec h /\
  g_value (metric_request_response_time_avg (snd (scrape f_zero f_one st (GetResponse code b))))
    = AverageResponseTimeSec h.
Proof.
  unfold scrape, fetch.
  replace ((200 <=? code) && (code <? 300))%bool with true
    by (symmetry; apply andb_true_intro; split; [apply Z.leb_le | apply Z.ltb_lt]; lia).
  simpl. rewrite Hdec. simpl. repeat split.
Qed.

(** C4: [scrape] fails exactly when the GET fails (Transport), else when the
    status code is outside 200..299 (BadStatus), else when the body does not
    decode (Decode); it succeeds otherwise, and a failing [scrape] leaves
    every metric as it was. *)
Theorem scrape_error_cases (st : State) (r : get_result) :
  (fst (scrape f_zero f_one st r) = Some ErrTransport <-> r = GetFailed) /\
  (forall code, fst (scrape f_zero f_one st r) = Some (ErrBadStatus code) <->
     exists b, r = GetResponse code b /\ ~ (200 <= code < 300)) /\
  (fst (scrape f_zero f_one st r) = Some ErrDecode <->
     exists code b, r = GetResponse code b /\ 200 <= code < 300 /\ Decode f_zero b = None) /\
  (fst (scrape f_zero f_one st r) = None <->
     exists code b h, r = GetResponse code b /\ 200 <= code < 300 /\ Decode f_zero b = Some h) /\
  (fst (scrape f_zero f_one st r) <> None -> snd (scrape f_zero f_one st r) = st).
Proof.
  unfold scrape, fetch. destruct r as [|code b]; simpl.
  - repeat split; intros; destr_ex; destruct_and?; by simplify_eq.
  - destruct ((200 <=? code) && (code <? 300))%bool eqn:Hc; simpl.
    + apply andb_prop in Hc as [Hc1%Z.leb_le Hc2%Z.ltb_lt].
      destruct (Decode f_zero b) as [h|] eqn:Hd; simpl;
        repeat split; intros; destr_ex; destruct_and?; simplify_eq;
        try lia; try congruence; eauto 10.
    + assert (Hn : ~ (200 <= code < 300)).
      { intros [H1%Z.leb_le H2%Z.ltb_lt]. rewrite H1, H2 in Hc. discriminate. }
      repeat split; intros; destr_ex; destruct_and?; simplify_eq;
        try lia; try congruence; eauto 10.
Qed.

(** C6: scraping the same upstream response twice in a row leaves the same
    metrics as scraping it once. *)
Theorem scrape_idempotent (st : State) (r : get_result) :
  snd (scrape f_zero f_one (snd (scrape f_zero f_one st r)) r) =
  snd (scrape f_zero f_one st r).
Proof.
  unfold scrape. destruct (fetch f_zero r) as [e|data]; simpl; [done|].
  apply scrape_update_idem.
Qed.

(** C3: when [scrape] fails, [Collect] sends only [up], set to 0, and changes
    nothing else; when it succeeds, [up] reads 1 and [Collect] sends the four
    singleton gauges and every gauge of both status-code maps. *)
Theorem Collect_emission (st : State) (r : get_result) :
  let st' := snd (Collect f_zero f_one st r) in
  match fetch f_zero r with
  | inl _ =>
      fst (Collect f_zero f_one st r) = [nomad_up st'] /\
      g_value (nomad_up st') = f_zero /\
      metric_uptime st' = metric_uptime st /\
      metric_request_response_time_total st' = metric_request_response_time_total st /\
      metric_request_response_time_avg st' = metric_request_response_time_avg st /\
      metric_request_status_count_current st' = metric_request_status_count_current st /\
      metric_request_status_count_total st' = metric_request_status_count_total st
  | inr _ =>
      g_value (nomad_up st') = f_one /\
      (forall g, In g (fst (Collect f_zero f_one st r)) <->
         g = nomad_up st' \/ g = metric_uptime st' \/
         g = metric_request_response_time_total st' \/
         g = metric_request_response_time_avg st' \/
         (exists k, metric_request_status_count_current st' !! k = Some g) \/
         (exists k, metric_request_status_count_total st' !! k = Some g))
  end.
Proof.
  unfold Collect, scrape. destruct (fetch f_zero r) as [e|data]; simpl.
  - repeat split.
  - split; [done|]. intros g. rewrite !in_app_iff, !in_map_iff. split.
    + intros [H|[H|[H|[H|[[[k g'] [Hg Hin]]|[[k g'] [Hg Hin]]]]]]]; simpl in *; subst;
        eauto 10; try done;
        rewrite <- list_elem_of_In, elem_of_map_to_list in Hin; eauto 10.
    + intros [H|[H|[H|[H|[[k Hk]|[k Hk]]]]]]; subst; eauto 8.
      * do 4 right. left. exists (k, g). split; [done|].
        by apply list_elem_of_In, elem_of_map_to_list.
      * do 4 right. right. exists (k, g). split; [done|].
        by apply list_elem_of_In, elem_of_map_to_list.
Qed.

(** C5: [up] starts at 0; a successful [scrape] sets it to 1 and a failed one
    leaves it to [Collect], which sets it to 0; so after every cycle it is 1
    if that cycle's scrape succeeded and 0 otherwise. *)
Theorem up_flag_transitions :
  g_value (nomad_up (init_state f_zero)) = f_zero /\
  (forall (st : State) (r : get_result),
     g_value (nomad_up (snd (scrape f_zero f_one st r))) =
       match fetch f_zero r with inl _ => g_value (nomad_up st) | inr _ => f_one end /\
     g_value (nomad_up (snd (Collect f_zero f_one st r))) =
       match fetch f_zero r with inl _ => f_zero | inr _ => f_one end) /\
  (forall (rs : list get_result) (r : get_result),
     g_value (nomad_up (run f_zero f_one (init_state f_zero) (rs ++ [r]))) =
       match fetch f_zero r with inl _ => f_zero | inr _ => f_one end).
Proof.
  split; [done|]. split.
  - intros st r. split; [|apply Collect_up_value].
    unfold scrape. by destruct (fetch f_zero r).
  - intros rs r. rewrite run_snoc. apply Collect_up_value.
Qed.

(** C9: in every reachable state the [up] gauge holds 0 or 1. *)
Theorem up_flag_binary (st : State) (Hr : reachable f_zero f_one st) :
  g_value (nomad_up st) = f_zero \/ g_value (nomad_up st) = f_one.
Proof.
  destruct Hr as [|st r _].
  - by left.
  - rewrite Collect_up_value. destruct (fetch f_zero r); auto.
Qed.

(** C1 (as amended): take two successful scrapes in a row, where S1 is the
    set of codes of the first scrape's [status_code_count] and S2, disjoint
    from it, is the set of codes of the second one's.  After the second
    scrape every code of S1\S2 has a current-count gauge reading 0.  Such a
    code keeps its cumulative-count gauge from after the first scrape when it
    was in the first scrape's [total_status_code_count] and is not in the
    second one's.  A code the second scrape reports in its
    [total_status_code_count] has a cumulative-count gauge holding that new
    value. *)
Theorem consecutive_scrapes_absent_codes (st : State) (r1 r2 : get_result)
    (h1 h2 : nomadHealth)
    (H1 : fetch f_zero r1 = inr h1) (H2 : fetch f_zero r2 = inr h2)
    (Hdisj : dom (StatusCodeCount h1) ## dom (StatusCodeCount h2)) :
  let st1 := snd (scrape f_zero f_one st r1) in
  let st2 := snd (scrape f_zero f_one st1 r2) in
  (forall c, c ∈ dom (StatusCodeCount h1) ∖ dom (StatusCodeCount h2) ->
     exists g, metric_request_status_count_current st2 !! c = Some g /\ g_value g = f_zero) /\
  (forall c, c ∈ dom (StatusCodeCount h1) ∖ dom (StatusCodeCount h2) ->
     c ∈ dom (TotalStatusCodeCount h1) -> c ∉ dom (TotalStatusCodeCount h2) ->
     metric_request_status_count_total st2 !! c = metric_request_status_count_total st1 !! c) /\
  (forall c n, TotalStatusCodeCount h2 !! c = Some n ->
     exists g, metric_request_status_count_total st2 !! c = Some g /\ g_value g = n).
Proof.
  intros st1 st2. unfold st2, st1, scrape. rewrite H1, H2; cbn [snd]. split; [|split].
  - intros c [Hc1 Hc2]%elem_of_difference.
    apply elem_of_dom in Hc1 as [n1 Hn1]. apply not_elem_of_dom in Hc2.
    rewrite lookup_current_after, Hc2, lookup_current_after, Hn1. simpl.
    eexists; split; [done|]. done.
  - intros c _ _ Hc. apply not_elem_of_dom in Hc.
    by rewrite lookup_total_after, Hc.
  - intros c n Hn. rewrite lookup_total_after, Hn. by eexists.
Qed.

(** C7 (as amended): no [Collect] cycle removes an entry of either
    status-code map, so a code once present stays present in every later
    state.  After a successful scrape whose [status_code_count] lacks a code,
    that code's current-count gauge reads 0; a cumulative-count gauge whose
    code is missing from the scrape's [total_status_code_count] keeps its
    previous value (it is not reset to 0). *)
Theorem dynamic_entries_persist (st : State) (rs : list get_result) (k : string) :
  (is_Some (metric_request_status_count_current st !! k) ->
   is_Some (metric_request_status_count_current (run f_zero f_one st rs) !! k)) /\
  (is_Some (metric_request_status_count_total st !! k) ->
   is_Some (metric_request_status_count_total (run f_zero f_one st rs) !! k)) /\
  (forall r : get_result,
     match fetch f_zero r with
     | inl _ => True
     | inr data =>
         (forall g, metric_request_status_count_current st !! k = Some g ->
            StatusCodeCount data !! k = None ->
            metric_request_status_count_current (snd (Collect f_zero f_one st r)) !! k
              = Some (gauge_set g f_zero)) /\
         (forall g, metric_request_status_count_total st !! k = Some g ->
            TotalStatusCodeCount data !! k = None ->
            metric_request_status_count_total (snd (Collect f_zero f_one st r)) !! k = Some g)
     end).
Proof.
  split; [|split].
  - revert st. induction rs as [|r rs IH]; intros st Hk; [done|].
    apply IH. rewrite Collect_state. destruct (fetch f_zero r) as [e|data]; [done|].
    rewrite lookup_current_after. destruct (StatusCodeCount data !! k); [done|].
    destruct Hk as [g ->]. by eexists.
  - revert st. induction rs as [|r rs IH]; intros st Hk; [done|].
    apply IH. rewrite Collect_state. destruct (fetch f_zero r) as [e|data]; [done|].
    rewrite lookup_total_after. destruct (TotalStatusCodeCount data !! k); [done|done].
  - intros r. rewrite Collect_state. destruct (fetch f_zero r) as [e|data]; [done|].
    split.
    + intros g Hg Hd. by rewrite lookup_current_after, Hd, Hg.
    + intros g Hg Hd. by rewrite lookup_total_after, Hd, Hg.
Qed.

(** C10: in every reachable state, the gauge of a status code in either map
    was built by [newGauge] with namespace "nomad", help text "Number of
    request handled by Nomad" and the single label statusCode=<code>; only
    the metric name tells the two families apart. *)
Theorem dynamic_gauge_descriptors (st : State) (Hr : reachable f_zero f_one st) :
  (forall k g, metric_request_status_count_current st !! k = Some g ->
     Desc g = (namespace, "request_count_current", help_count, [("statusCode", k)])%string) /\
  (forall k g, metric_request_status_count_total st !! k = Some g ->
     Desc g = (namespace, "request_count_total", help_count, [("statusCode", k)])%string) /\
  (forall k g1 g2, metric_request_status_count_current st !! k = Some g1 ->
     metric_request_status_count_total st !! k = Some g2 ->
     g_namespace g1 = g_namespace g2 /\ g_help g1 = g_help g2 /\
     g_constLabels g1 = g_constLabels g2 /\ g_name g1 <> g_name g2).
Proof.
  assert (Hinv : (forall k g, metric_request_status_count_current st !! k = Some g ->
     Desc g = (namespace, "request_count_current", help_count, [("statusCode", k)])%string) /\
    (forall k g, metric_request_status_count_total st !! k = Some g ->
     Desc g = (namespace, "request_count_total", help_count, [("statusCode", k)])%string)).
  { induction Hr as [|st r _ [IHc IHt]]; [split; intros ??; simpl; by rewrite lookup_empty|].
    rewrite Collect_state. destruct (fetch f_zero r) as [e|data]; [exact (conj IHc IHt)|].
    split; intros k g.
    - rewrite lookup_current_after.
      destruct (StatusCodeCount data !! k) as [n|];
        destruct (metric_request_status_count_current st !! k) as [g0|] eqn:Hg0;
        intros [= <-]; try done; specialize (IHc _ _ Hg0); destruct g0; by simplify_eq/=.
    - rewrite lookup_total_after.
      destruct (TotalStatusCodeCount data !! k) as [n|];
        destruct (metric_request_status_count_total st !! k) as [g0|] eqn:Hg0;
        try (intros [= <-]); try done; specialize (IHt _ _ Hg0); try destruct g0;
        try by simplify_eq/=. }
  destruct Hinv as [Hc Ht]. split; [done|]. split; [done|].
  intros k g1 g2 H1 H2. specialize (Hc _ _ H1). specialize (Ht _ _ H2).
  destruct g1, g2; unfold Desc in *; simplify_eq/=. done.
Qed.

(** C8 (as amended): no field of [nomadHealth] is required.  A top-level key
    selects a field when it equals the field's JSON name, or equals it up to
    the decoder's case folding (ASCII case, and U+017F / U+212A for s / k).
    Keys that select no field are ignored: dropping them does not change the
    result of decoding, so they cause no Decode failure.  A field that no key
    selects keeps its zero value.  An object in which no key selects a field
    decodes to the zero snapshot, and dropping the keys of any set of fields
    from an object that decodes leaves one that still decodes. *)
Theorem decode_fields_optional (kvs : list (string * json)) :
  Decode f_zero (BodyJson (JObject kvs)) =
    Decode f_zero (BodyJson (JObject (List.filter selects_field kvs))) /\
  (forall (f : field) (h : nomadHealth),
     Decode f_zero (BodyJson (JObject kvs)) = Some h ->
     (forall k, In k (map fst kvs) -> field_of_key k <> Some f) ->
     field_zero f_zero h f) /\
  ((forall k, In k (map fst kvs) -> field_of_key k = None) ->
   Decode f_zero (BodyJson (JObject kvs)) = Some (zero_nomadHealth f_zero)) /\
  (forall keep : field -> bool,
     is_Some (Decode f_zero (BodyJson (JObject kvs))) ->
     is_Some (Decode f_zero (BodyJson (JObject (List.filter
       (fun kv => match field_of_key kv.1 with Some f => keep f | None => true end)
       kvs))))).
Proof.
  split; [|split; [|split]].
  - apply decode_object_filter.
  - intros f h Hd Hsel. apply (decode_object_keeps_unselected f kvs _ _ Hd Hsel).
    by destruct f.
  - intros Hnone. unfold Decode. rewrite decode_object_filter.
    by rewrite filter_selects_field_nil.
  - intros keep. unfold Decode. rewrite !decode_object_is_Some.
    intros Hall k v f Hin Hk. apply filter_In in Hin as [Hin _]. eauto.
Qed.

End Proofs.


(** * Further properties of the exporter *)

Section Extras.
Context {float64 : Type} (f_zero f_one : float64).

Local Abbreviation State := (@State float64).
Local Abbreviation Gauge := (@Gauge float64).

Lemma dom_current_after (data : nomadHealth) (st : State) :
  dom (metric_request_status_count_current (scrape_update f_zero f_one data st)) =
  dom (StatusCodeCount data) ∪ dom (metric_request_status_count_current st).
Proof.
  apply set_eq. intros k. rewrite elem_of_union, !elem_of_dom, lookup_current_after.
  destruct (StatusCodeCount data !! k), (metric_request_status_count_current st !! k);
    simpl; split; intros H; destruct_or?; eauto; by destruct H.
Qed.

Lemma dom_total_after (data : nomadHealth) (st : State) :
  dom (metric_request_status_count_total (scrape_update f_zero f_one data st)) =
  dom (TotalStatusCodeCount data) ∪ dom (metric_request_status_count_total st).
Proof.
  apply set_eq. intros k. rewrite elem_of_union, !elem_of_dom, lookup_total_after.
  destruct (TotalStatusCodeCount data !! k), (metric_request_status_count_total st !! k);
    simpl; split; intros H; destruct_or?; eauto; by destruct H.
Qed.

(** X1: every metric [Collect] sends is described by [Describe] on the
    resulting state; after a successful scrape the descriptors of the metrics
    sent are exactly those [Describe] lists (the same list up to order). *)
Theorem Describe_covers_Collect (st : State) (r : get_result) :
  (forall d, d ∈ map Desc (fst (Collect f_zero f_one st r)) ->
     d ∈ Describe (snd (Collect f_zero f_one st r))) /\
  match fetch f_zero r with
  | inr _ => map Desc (fst (Collect f_zero f_one st r)) ≡ₚ
             Describe (snd (Collect f_zero f_one st r))
  | inl _ => True
  end.
Proof.
  unfold Collect, scrape. destruct (fetch f_zero r) as [e|data]; simpl.
  - split; [|done]. intros d Hd. apply list_elem_of_singleton in Hd as ->.
    unfold Describe. set_solver.
  - assert (Hp : map Desc ([nomad_up (scrape_update f_zero f_one data st);
                 metric_uptime (scrape_update f_zero f_one data st);
                 metric_request_response_time_total (scrape_update f_zero f_one data st);
                 metric_request_response_time_avg (scrape_update f_zero f_one data st)]
               ++ map snd (map_to_list (metric_request_status_count_current
                                          (scrape_update f_zero f_one data st)))
               ++ map snd (map_to_list (metric_request_status_count_total
                                          (scrape_update f_zero f_one data st))))
             ≡ₚ Describe (scrape_update f_zero f_one data st)).
    { unfold Describe. rewrite !map_app, !map_map. simpl. apply perm_swap. }
    split; [|exact Hp]. intros d Hd. by rewrite <- Hp.
Qed.

(** X2: after a successful scrape, the current-count family holds exactly the
    payload's [status_code_count] values, plus 0 for every code seen before
    and missing from the payload; a failed scrape leaves it as it was. *)
Theorem current_values_after_scrape (st : State) (r : get_result) :
  g_value <$> metric_request_status_count_current (snd (scrape f_zero f_one st r)) =
  match fetch f_zero r with
  | inr data =>
      StatusCodeCount data ∪
        ((fun _ => f_zero) <$> metric_request_status_count_current st)
  | inl _ => g_value <$> metric_request_status_count_current st
  end.
Proof.
  unfold scrape. destruct (fetch f_zero r) as [e|data]; cbn [snd]; [done|].
  apply map_eq. intros k. rewrite lookup_fmap, lookup_union, lookup_fmap, lookup_current_after.
  destruct (StatusCodeCount data !! k), (metric_request_status_count_current st !! k); done.
Qed.

(** X3: after a successful scrape, the cumulative-count family holds the
    payload's [total_status_code_count] values, and its previous value for
    every other code; a failed scrape leaves it as it was. *)
Theorem total_values_after_scrape (st : State) (r : get_result) :
  g_value <$> metric_request_status_count_total (snd (scrape f_zero f_one st r)) =
  match fetch f_zero r with
  | inr data =>
      TotalStatusCodeCount data ∪ (g_value <$> metric_request_status_count_total st)
  | inl _ => g_value <$> metric_request_status_count_total st
  end.
Proof.
  unfold scrape. destruct (fetch f_zero r) as [e|data]; cbn [snd]; [done|].
  apply map_eq. intros k. rewrite lookup_fmap, lookup_union, lookup_fmap, lookup_total_after.
  destruct (TotalStatusCodeCount data !! k), (metric_request_status_count_total st !! k); done.
Qed.

(** X4: over a run of [Collect] cycles, each status-code map gains exactly
    the codes of the payloads of the successful scrapes, and loses none. *)
Theorem run_status_codes (st : State) (rs : list get_result) :
  dom (metric_request_status_count_current (run f_zero f_one st rs)) =
    dom (metric_request_status_count_current st) ∪ scraped_codes f_zero StatusCodeCount rs /\
  dom (metric_request_status_count_total (run f_zero f_one st rs)) =
    dom (metric_request_status_count_total st) ∪ scraped_codes f_zero TotalStatusCodeCount rs.
Proof.
  revert st. induction rs as [|r rs IH]; intros st; simpl.
  - split; by rewrite (right_id_L ∅ (∪)).
  - destruct (IH (snd (Collect f_zero f_one st r))) as [IHc IHt].
    change (fold_left (fun s r0 => snd (Collect f_zero f_one s r0)) rs
              (snd (Collect f_zero f_one st r)))
      with (run f_zero f_one (snd (Collect f_zero f_one st r)) rs).
    rewrite IHc, IHt, Collect_state.
    destruct (fetch f_zero r) as [e|data]; cbv beta iota.
    + split; set_solver.
    + rewrite dom_current_after, dom_total_after. split; set_solver.
Qed.

Lemma Desc_gauge_set (g : Gauge) (v : float64) : Desc (gauge_set g v) = Desc g.
Proof. by destruct g. Qed.

Lemma map_is_fmap {A B} (f : A -> B) (l : list A) : map f l = f <$> l.
Proof. induction l as [|x l IH]; simpl; [done|]. by rewrite IH. Qed.

(** The descriptors of every gauge of a reachable state: the singletons keep
    those of the [var] block, the labeled gauges those given at creation. *)
Lemma reachable_descs (st : State) (Hr : reachable f_zero f_one st) :
  Desc (metric_uptime st) = (namespace, "uptime", "Current Nomad uptime", [])%string /\
  Desc (nomad_up st) = (namespace, "up", "Is Nomad up ?", [])%string /\
  Desc (metric_request_response_time_total st) =
    (namespace, "request_response_time_total", "Total response time of Nomad requests", [])%string /\
  Desc (metric_request_response_time_avg st) =
    (namespace, "request_response_time_avg", "Average response time of Nomad requests", [])%string /\
  (forall k g, metric_request_status_count_current st !! k = Some g ->
     Desc g = (namespace, "request_count_current", "Number of request handled by Nomad",
               [("statusCode", k)])%string) /\
  (forall k g, metric_request_status_count_total st !! k = Some g ->
     Desc g = (namespace, "request_count_total", "Number of request handled by Nomad",
               [("statusCode", k)])%string).
Proof.
  induction Hr as [|st r _ (IHut & IHup & IHtt & IHav & IHc & IHt)].
  - split_and!; try done; intros ??; simpl; by rewrite lookup_empty.
  - rewrite Collect_state. destruct (fetch f_zero r) as [e|data]; cbv beta iota.
    + cbn [set_nomad_up nomad_up metric_uptime metric_request_response_time_total
           metric_request_response_time_avg metric_request_status_count_current
           metric_request_status_count_total].
      rewrite Desc_gauge_set. split_and!; done.
    + split_and!; try (cbn [scrape_update nomad_up metric_uptime
                                metric_request_response_time_total
                                metric_request_response_time_avg];
                       by rewrite Desc_gauge_set).
      * intros k g. rewrite lookup_current_after.
        destruct (StatusCodeCount data !! k) as [n|];
          destruct (metric_request_status_count_current st !! k) as [g0|] eqn:Hg0;
          intros [= <-]; rewrite ?Desc_gauge_set; eauto.
      * intros k g. rewrite lookup_total_after.
        destruct (TotalStatusCodeCount data !! k) as [n|];
          destruct (metric_request_status_count_total st !! k) as [g0|] eqn:Hg0;
          try (intros [= <-]); rewrite ?Desc_gauge_set; eauto.
Qed.

Section labeled.
Variables (m : gmap string Gauge) (name : string).
Hypothesis Hm : forall k g, m !! k = Some g ->
  Desc g = (namespace, name, "Number of request handled by Nomad", [("statusCode", k)])%string.

Lemma labeled_desc_shape x :
  x ∈ (fun kv : string * Gauge => Desc kv.2) <$> map_to_list m ->
  exists k, x = (namespace, name, "Number of request handled by Nomad", [("statusCode", k)])%string.
Proof.
  intros ([k g] & -> & Hin)%list_elem_of_fmap. apply elem_of_map_to_list in Hin.
  exists k. by apply Hm.
Qed.

Lemma labeled_desc_NoDup :
  NoDup ((fun kv : string * Gauge => Desc kv.2) <$> map_to_list m).
Proof.
  apply NoDup_fmap_2_strong; [|apply NoDup_map_to_list].
  intros [k1 g1] [k2 g2] H1 H2 Heq. simpl in Heq.
  apply elem_of_map_to_list in H1, H2.
  rewrite (Hm _ _ H1), (Hm _ _ H2) in Heq. simplify_eq. congruence.
Qed.
End labeled.

(** X5: in every reachable state, [Describe] sends no descriptor twice. *)
Theorem Describe_NoDup (st : State) (Hr : reachable f_zero f_one st) :
  NoDup (Describe st).
Proof.
  destruct (reachable_descs st Hr) as (Hut & Hup & Htt & Hav & Hc & Ht).
  unfold Describe. rewrite Hut, Hup, Htt, Hav, !map_is_fmap.
  apply NoDup_app. split_and!.
  - apply NoDup_ListNoDup. repeat constructor; simpl; intuition congruence.
  - intros x Hx Hx'. apply elem_of_app in Hx' as [Hx'|Hx'];
      [destruct (labeled_desc_shape _ _ Hc x Hx') as [k ->]
      |destruct (labeled_desc_shape _ _ Ht x Hx') as [k ->]];
      apply list_elem_of_In in Hx; simpl in Hx; intuition congruence.
  - apply NoDup_app. split_and!.
    + exact (labeled_desc_NoDup _ _ Hc).
    + intros x Hx Hx'.
      destruct (labeled_desc_shape _ _ Hc x Hx) as [k1 ->].
      destruct (labeled_desc_shape _ _ Ht _ Hx') as [k2 ?]. congruence.
    + exact (labeled_desc_NoDup _ _ Ht).
Qed.

(** X6: in every reachable state, [Describe] starts with the descriptors of
    the four singleton gauges as declared in the [var] block: [Set] never
    changes a gauge's name, help text or labels. *)
Theorem Describe_singletons (st : State) (Hr : reachable f_zero f_one st) :
  take 4 (Describe st) =
  [(namespace, "uptime", "Current Nomad uptime", []);
   (namespace, "up", "Is Nomad up ?", []);
   (namespace, "request_response_time_total", "Total response time of Nomad requests", []);
   (namespace, "request_response_time_avg", "Average response time of Nomad requests", [])]%string.
Proof.
  destruct (reachable_descs st Hr) as (Hut & Hup & Htt & Hav & _ & _).
  unfold Describe. simpl. by rewrite Hut, Hup, Htt, Hav.
Qed.

(** X7: decoding a JSON object succeeds exactly when every key that selects
    a field of [nomadHealth] holds a value of that field's kind: a number in
    [float64] range or null for a [float64] field; null or an object of such
    numbers and nulls for a map field.  Values under unselected keys are never checked. *)
Theorem Decode_object_succeeds_iff (kvs : list (string * json)) :
  is_Some (Decode f_zero (BodyJson (JObject kvs))) <->
  (forall k v f, In (k, v) kvs -> field_of_key k = Some f -> value_fits f v = true).
Proof. apply decode_object_is_Some. Qed.

Lemma decode_map_entries_numbers (l : list (string * float64)) (m0 : gmap string float64) :
  NoDup l.*1 ->
  decode_map_entries f_zero m0 ((fun kv => (kv.1, JNumber kv.2)) <$> l) =
  Some (list_to_map l ∪ m0).
Proof.
  revert m0. induction l as [|[k n] l IH]; intros m0 Hnd; simpl.
  - by rewrite (left_id_L ∅ (∪)).
  - apply NoDup_cons in Hnd as [Hk Hnd]. rewrite IH by done.
    rewrite <- insert_union_r by (by apply not_elem_of_list_to_map_1).
    by rewrite insert_union_l.
Qed.

(** X8: a payload that lists the five fields of a snapshot under their JSON
    names (each map entry once, in any order) decodes to that snapshot
    exactly: decoding loses no value and no status code. *)
Theorem Decode_payload_of (h : nomadHealth) :
  Decode f_zero (BodyJson (payload_of h)) = Some h.
Proof.
  unfold Decode, payload_of, map_payload. cbn [decode_object].
  change (field_of_key "uptime_sec") with (Some FUpTimeSec).
  change (field_of_key "status_code_count") with (Some FStatusCodeCount).
  change (field_of_key "total_status_code_count") with (Some FTotalStatusCodeCount).
  change (field_of_key "total_response_time_sec") with (Some FTotalResponseTimeSec).
  change (field_of_key "average_response_time_sec") with (Some FAverageResponseTimeSec).
  cbn [decode_field decode_float decode_map zero_nomadHealth
       UpTimeSec StatusCodeCount TotalStatusCodeCount TotalResponseTimeSec
       AverageResponseTimeSec].
  rewrite !decode_map_entries_numbers by apply NoDup_fst_map_to_list.
  cbn [UpTimeSec StatusCodeCount TotalStatusCodeCount TotalResponseTimeSec
       AverageResponseTimeSec].
  rewrite !list_to_map_to_list, !(right_id_L ∅ (∪)). by destruct h.
Qed.

(** X9: a 2xx response whose body is the JSON literal [null] is a successful
    scrape: [up] becomes 1, the three float gauges and every current count
    drop to 0, and the cumulative counts stay as they were. *)
Theorem scrape_null_body (st : State) (code : Z) (Hc : 200 <= code < 300) :
  scrape f_zero f_one st (GetResponse code (BodyJson JNull)) =
  (None,
   {| nomad_up := gauge_set (nomad_up st) f_one;
      metric_uptime := gauge_set (metric_uptime st) f_zero;
      metric_request_response_time_total :=
        gauge_set (metric_request_response_time_total st) f_zero;
      metric_request_response_time_avg :=
        gauge_set (metric_request_response_time_avg st) f_zero;
      metric_request_status_count_current :=
        (fun g => gauge_set g f_zero) <$> metric_request_status_count_current st;
      metric_request_status_count_total := metric_request_status_count_total st |}).
Proof.
  unfold scrape, fetch.
  replace (negb ((200 <=? code) && (code <? 300))%bool) with false
    by (symmetry; apply negb_false_iff, andb_true_iff; lia).
  cbn [Decode]. unfold scrape_update. cbn [StatusCodeCount TotalStatusCodeCount
    UpTimeSec TotalResponseTimeSec AverageResponseTimeSec zero_nomadHealth].
  by rewrite !map_fold_empty.
Qed.

End Extras.

(** ** Checks on concrete inputs: the spec's scenarios, witnesses and
    counterexamples *)
Module Checks.
Import Scenario.
Local Open Scope Q_scope.

Example scenario1_values :
  g_value (nomad_up st1) = 1 /\ g_value (metric_uptime st1) = 241 # 2 /\
  cur_value st1 "200" = Some 10 /\ cur_value st1 "500" = Some 1 /\
  tot_value st1 "200" = Some 1000 /\
  g_value (metric_request_response_time_total st1) = 50 /\
  g_value (metric_request_response_time_avg st1) = 1 # 20.
Proof. vm_compute. repeat split. Qed.

Example scenario2_values :
  cur_value st2 "500" = Some 0 /\ cur_value st2 "200" = Some 12 /\
  tot_value st2 "200" = Some 1000.
Proof. vm_compute. repeat split. Qed.

Example scenario_503 :
  CollectQ st1 (GetResponse 503 body1) = ([gauge_set (nomad_up st1) 0], set_nomad_up st1 0).
Proof. reflexivity. Qed.

Example decode_body1 : Decode 0 body1 = Some snap1.
Proof. vm_compute. reflexivity. Qed.

Example disjoint_1_3 : dom (StatusCodeCount snap1) ## dom (StatusCodeCount snap3).
Proof. apply (bool_decide_unpack _). vm_compute. reflexivity. Qed.

Example field_lookup :
  field_of_key "total_status_code_count" = Some FTotalStatusCodeCount /\
  field_of_key "Status_Code_Count" = Some FStatusCodeCount /\
  field_of_key "pid" = None /\ field_of_key "uptime" = None.
Proof. vm_compute. repeat split. Qed.

(** Witness of [scrape_success_singletons]: the spec's first payload. *)
Lemma scrape_success_singletons_witness :
  (200 <= 200 < 300)%Z /\ Decode 0 body1 = Some snap1 /\
  fst (scrapeQ initQ (GetResponse 200 body1)) = None /\
  g_value (nomad_up (snd (scrapeQ initQ (GetResponse 200 body1)))) = 1 /\
  g_value (metric_uptime (snd (scrapeQ initQ (GetResponse 200 body1)))) = UpTimeSec snap1 /\
  g_value (metric_request_response_time_total (snd (scrapeQ initQ (GetResponse 200 body1))))
    = TotalResponseTimeSec snap1 /\
  g_value (metric_request_response_time_avg (snd (scrapeQ initQ (GetResponse 200 body1))))
    = AverageResponseTimeSec snap1.
Proof.
  split; [lia|]. split; [vm_compute; reflexivity|].
  exact (@scrape_success_singletons Q 0 1 initQ 200 body1 snap1
           ltac:(lia) ltac:(vm_compute; reflexivity)).
Defined.

(** Witness of [consecutive_scrapes_absent_codes]: current codes {200}, then
    {404}; the second payload reports code 200 in its cumulative counts. *)
Lemma consecutive_scrapes_absent_codes_witness :
  fetch 0 (GetResponse 200 bodyA) = inr snapA /\
  fetch 0 (GetResponse 200 bodyB) = inr snapB /\
  dom (StatusCodeCount snapA) ## dom (StatusCodeCount snapB) /\
  let st1 := snd (scrapeQ initQ (GetResponse 200 bodyA)) in
  let st2 := snd (scrapeQ st1 (GetResponse 200 bodyB)) in
  (forall c, c ∈ dom (StatusCodeCount snapA) ∖ dom (StatusCodeCount snapB) ->
     exists g, metric_request_status_count_current st2 !! c = Some g /\ g_value g = 0) /\
  (forall c, c ∈ dom (StatusCodeCount snapA) ∖ dom (StatusCodeCount snapB) ->
     c ∈ dom (TotalStatusCodeCount snapA) -> c ∉ dom (TotalStatusCodeCount snapB) ->
     metric_request_status_count_total st2 !! c = metric_request_status_count_total st1 !! c) /\
  (forall c n, TotalStatusCodeCount snapB !! c = Some n ->
     exists g, metric_request_status_count_total st2 !! c = Some g /\ g_value g = n).
Proof.
  split; [vm_compute; reflexivity|]. split; [vm_compute; reflexivity|].
  split; [apply (bool_decide_unpack _); vm_compute; reflexivity|].
  exact (@consecutive_scrapes_absent_codes Q 0 1 initQ (GetResponse 200 bodyA)
           (GetResponse 200 bodyB) snapA snapB
           ltac:(vm_compute; reflexivity) ltac:(vm_compute; reflexivity)
           ltac:(apply (bool_decide_unpack _); vm_compute; reflexivity)).
Defined.

(** C1 fails as stated: code 200 is current in the first payload only, yet
    its cumulative gauge moves from 1000 to 1005 because the second payload
    still reports it in [total_status_code_count]. *)
Lemma consecutive_scrapes_cumulative_changes :
  fetch 0 (GetResponse 200 bodyA) = inr snapA /\
  fetch 0 (GetResponse 200 bodyB) = inr snapB /\
  dom (StatusCodeCount snapA) ## dom (StatusCodeCount snapB) /\
  "200"%string ∈ dom (StatusCodeCount snapA) ∖ dom (StatusCodeCount snapB) /\
  "200"%string ∈ dom (TotalStatusCodeCount snapA) /\
  tot_value stA "200" = Some 1000 /\ tot_value stB "200" = Some 1005 /\
  metric_request_status_count_total stB !! "200"%string <>
    metric_request_status_count_total stA !! "200"%string.
Proof.
  split; [vm_compute; reflexivity|]. split; [vm_compute; reflexivity|].
  split; [apply (bool_decide_unpack _); vm_compute; reflexivity|].
  split; [apply (bool_decide_unpack _); vm_compute; reflexivity|].
  split; [apply (bool_decide_unpack _); vm_compute; reflexivity|].
  split; [vm_compute; reflexivity|]. split; [vm_compute; reflexivity|].
  vm_compute. congruence.
Qed.

(** C7 fails as stated for the cumulative family: code 200 stays in the
    cumulative map after it disappears from the payload, at 1000, not 0. *)
Lemma cumulative_entry_not_zeroed :
  is_Some (metric_request_status_count_total stC1 !! "200"%string) /\
  fetch 0 (GetResponse 200 body2) = inr snap2 /\
  TotalStatusCodeCount snap2 !! "200"%string = None /\
  tot_value stC2 "200" = Some 1000 /\ tot_value stC2 "200" <> Some 0.
Proof.
  split; [vm_compute; eauto|]. split; [vm_compute; reflexivity|].
  split; [vm_compute; reflexivity|]. split; [vm_compute; reflexivity|].
  vm_compute. congruence.
Qed.

(** Witness of [up_flag_binary]: the state after one successful cycle. *)
Lemma up_flag_binary_witness :
  reachable 0 1 stC1 /\
  (g_value (nomad_up stC1) = 0 \/ g_value (nomad_up stC1) = 1).
Proof.
  split; [apply reachable_collect, reachable_init|].
  exact (@up_flag_binary Q 0 1 stC1
           ltac:(apply reachable_collect, reachable_init)).
Defined.

(** Witness of [dynamic_gauge_descriptors]: the state after the spec's first
    payload, where code 200 is in both maps. *)
Lemma dynamic_gauge_descriptors_witness :
  reachable 0 1 stC1 /\
  (forall k g, metric_request_status_count_current stC1 !! k = Some g ->
     Desc g = (namespace, "request_count_current",
               "Number of request handled by Nomad", [("statusCode", k)])%string) /\
  (forall k g, metric_request_status_count_total stC1 !! k = Some g ->
     Desc g = (namespace, "request_count_total",
               "Number of request handled by Nomad", [("statusCode", k)])%string) /\
  (forall k g1 g2, metric_request_status_count_current stC1 !! k = Some g1 ->
     metric_request_status_count_total stC1 !! k = Some g2 ->
     g_namespace g1 = g_namespace g2 /\ g_help g1 = g_help g2 /\
     g_constLabels g1 = g_constLabels g2 /\ g_name g1 <> g_name g2).
Proof.
  split; [apply reachable_collect, reachable_init|].
  exact (@dynamic_gauge_descriptors Q 0 1 stC1
           ltac:(apply reachable_collect, reachable_init)).
Defined.

(** C8 fails as stated: the decoder matches keys up to case, so the key
    UPTIME_SEC, which is none of the five names, fills [UpTimeSec] (with 7,
    not the zero value), and Uptime_Sec holding a string makes [Decode] fail. *)
Lemma decode_case_folded_key :
  ("UPTIME_SEC"%string ∉ map json_tag struct_fields) /\
  Decode 0 body_upper =
    Some {| UpTimeSec := 7; StatusCodeCount := ∅; TotalStatusCodeCount := ∅;
            TotalResponseTimeSec := 0; AverageResponseTimeSec := 0 |} /\
  (7 : Q) <> 0 /\
  ("Uptime_Sec"%string ∉ map json_tag struct_fields) /\
  Decode 0 body_upper_string = None.
Proof.
  split; [apply (bool_decide_unpack _); vm_compute; reflexivity|].
  split; [vm_compute; reflexivity|]. split; [discriminate|].
  split; [apply (bool_decide_unpack _); vm_compute; reflexivity|].
  vm_compute. reflexivity.
Qed.

(** A number literal out of [float64] range under a field's key makes the
    decode fail (Go: cannot unmarshal number 1e400 into ... float64); under a
    key that selects no field it is skipped. *)
Example decode_number_out_of_range :
  Decode 0 (BodyJson (JObject [("uptime_sec", JNumberOutOfRange)])) = None /\
  Decode 0 (BodyJson (JObject [("status_code_count",
                                JObject [("200", JNumberOutOfRange)])])) = None /\
  Decode 0 (BodyJson (JObject [("pid", JNumberOutOfRange)])) =
    Some (zero_nomadHealth 0).
Proof. vm_compute. repeat split. Qed.

(** Witness of [Describe_NoDup]: the state after the spec's first payload. *)
Lemma Describe_NoDup_witness :
  reachable 0 1 stC1 /\ NoDup (Describe stC1).
Proof.
  split; [apply reachable_collect, reachable_init|].
  exact (@Describe_NoDup Q 0 1 stC1
           ltac:(apply reachable_collect, reachable_init)).
Defined.

(** Witness of [Describe_singletons]: the same state. *)
Lemma Describe_singletons_witness :
  reachable 0 1 stC1 /\
  take 4 (Describe stC1) =
  [(namespace, "uptime", "Current Nomad uptime", []);
   (namespace, "up", "Is Nomad up ?", []);
   (namespace, "request_response_time_total", "Total response time of Nomad requests", []);
   (namespace, "request_response_time_avg", "Average response time of Nomad requests", [])]%string.
Proof.
  split; [apply reachable_collect, reachable_init|].
  exact (@Describe_singletons Q 0 1 stC1
           ltac:(apply reachable_collect, reachable_init)).
Defined.

(** Witness of [scrape_null_body]: a 200 response with a null body, after the
    spec's first payload. *)
Lemma scrape_null_body_witness :
  (200 <= 200 < 300)%Z /\
  scrapeQ stC1 (GetResponse 200 (BodyJson JNull)) =
  (None,
   {| nomad_up := gauge_set (nomad_up stC1) 1;
      metric_uptime := gauge_set (metric_uptime stC1) 0;
      metric_request_response_time_total :=
        gauge_set (metric_request_response_time_total stC1) 0;
      metric_request_response_time_avg :=
        gauge_set (metric_request_response_time_avg stC1) 0;
      metric_request_status_count_current :=
        (fun g => gauge_set g 0) <$> metric_request_status_count_current stC1;
      metric_request_status_count_total := metric_request_status_count_total stC1 |}).
Proof.
  split; [lia|].
  exact (@scrape_null_body Q 0 1 stC1 200 ltac:(lia)).
Defined.

End Checks.
